(** * Announcements router of the High School Management System API

    A shallow embedding of [src/backend/routers/announcements.py]: the five
    request handlers, run against an in-memory model of the two MongoDB
    collections they use, followed by the properties of the handlers. *)

From stdpp Require Import gmap strings list sorting pretty.

(** ** Python values and dictionaries

    Every field this router writes is a [str] or an [Optional[str]]; a
    dictionary maps a key to such a value.  A key can be missing, hold [None]
    or hold a string: these are three different lookups. *)

Abbreviation pydict := (gmap string (option string)).

(** [d.get(k)]: [None] when the key is missing, the stored value otherwise. *)
Definition dict_get (d : pydict) (k : string) : option string :=
  match d !! k with
  | Some v => v
  | None => None
  end.

(** Truth value of an [Optional[str]]: [None] and [""] are false. *)
Definition truthy (v : option string) : bool :=
  match v with
  | Some s => negb (String.eqb s "")
  | None => false
  end.

(** Truth value of a dictionary: only the empty one is false. *)
Definition dict_truthy (d : pydict) : bool := negb (bool_decide (d = ∅)).

(** ** Exceptions *)

Inductive exn : Type :=
| HTTPException (status_code : nat) (detail : string)
| InvalidId (oid : string)
| TypeError
| DuplicateKeyError.

Inductive outcome (A : Type) : Type :=
| Return (a : A)
| Raise (e : exn).
Arguments Return {A} a.
Arguments Raise {A} e.

(** What the handlers take from their libraries: [bson.ObjectId] (built from
    a string, which fails on a malformed one, and rendered with [str]) and the
    text [str(e)] of an exception. *)
Class Platform (ObjectId : Type) := {
  ObjectId_eq_dec :: EqDecision ObjectId;
  ObjectId_of_str : string → option ObjectId;
  str_of_ObjectId : ObjectId → string;
  str_of_exn : exn → string;
}.

(** ** Collections

    A stored document always has an [_id]; the remaining fields are a
    dictionary.  A collection keeps its documents in insertion order, which is
    the order an unsorted [find] returns them in. *)

Record document (K : Type) : Type := Document {
  _id : K;
  fields : pydict;
}.
Arguments Document {K} _ _.
Arguments _id {K} _.
Arguments fields {K} _.

Section Collection.
Context {K : Type} `{EqDecision K}.

(** Modelled from the spec: the collections of [..database] are not in the
    source; the specification gives their contract, [find_one(key) -> doc |
    absent].  [find_one({"_id": k})] is the first document with that
    identifier. *)
Definition find_one (k : K) (c : list (document K)) : option (document K) :=
  snd <$> list_find (λ d, _id d = k) c.

(** Modelled from the spec: [update_one(key, partial) -> matched_count].
    [update_one({"_id": k}, {"$set": upd})] sets the given fields of the
    first document with that identifier; the new collection and
    [matched_count]. *)
Definition update_one (k : K) (upd : pydict) (c : list (document K))
  : list (document K) * nat :=
  match list_find (λ d, _id d = k) c with
  | Some (i, d) => (<[i := Document (_id d) (upd ∪ fields d)]> c, 1)
  | None => (c, 0)
  end.

(** Modelled from the spec: [delete_one(key) -> deleted_count].
    [delete_one({"_id": k})] removes the first document with that
    identifier; the new collection and [deleted_count]. *)
Definition delete_one (k : K) (c : list (document K))
  : list (document K) * nat :=
  match list_find (λ d, _id d = k) c with
  | Some (i, _) => (delete i c, 1)
  | None => (c, 0)
  end.

(** Modelled from the spec: [insert(doc) -> generated_id].
    [insert_one(doc)] with the identifier the driver generated: the server
    refuses an identifier that is already taken. *)
Definition insert_one (k : K) (doc : pydict) (c : list (document K))
  : option (list (document K)) :=
  match find_one k c with
  | Some _ => None
  | None => Some (c ++ [Document k doc])
  end.
End Collection.

(** Modelled from the spec: [find(query) -> sequence].
    [find({field: {"$gte": bound}})]: comparison operators only match values
    of the bound's type, so a missing or null field does not match. *)
Definition matches_gte (field bound : string) {K} (d : document K) : bool :=
  match fields d !! field with
  | Some (Some v) => String.leb bound v
  | _ => false
  end.

Definition find_gte {K} (field bound : string) (c : list (document K))
  : list (document K) :=
  List.filter (matches_gte field bound) c.

(** Modelled from the spec: the store "supports sorting by a field".
    Sort order of [sort(field, -1)]: a missing or null field sorts below every
    string, strings compare lexically, and the larger key comes first. *)
Definition key_le (a b : option string) : Prop :=
  match a, b with
  | None, _ => True
  | Some _, None => False
  | Some x, Some y => String.leb x y = true
  end.

Definition descending (field : string) {K} (d1 d2 : document K) : Prop :=
  key_le (dict_get (fields d2) field) (dict_get (fields d1) field).

Global Instance key_le_dec a b : Decision (key_le a b).
Proof. destruct a, b; simpl; apply _. Defined.

Global Instance descending_dec field {K} (d1 d2 : document K) :
  Decision (descending field d1 d2).
Proof. unfold descending. apply _. Defined.

Definition find_sort_desc {K} (field : string) (c : list (document K))
  : list (document K) :=
  merge_sort (descending field) c.

(** ** Request bodies *)

Module AnnouncementCreate.
Record t : Type := Build {
  message : string;
  start_date : option string;
  expiration_date : string;
  created_by : string;
}.
End AnnouncementCreate.

Module AnnouncementUpdate.
Record t : Type := Build {
  message : option string;
  start_date : option string;
  expiration_date : option string;
}.
End AnnouncementUpdate.

(** ** The database and the handler monad *)

Inductive collection_name : Type := Teachers | Announcements.
Inductive operation : Type := FindOne | Find | InsertOne | UpdateOne | DeleteOne.

Global Instance collection_name_eq_dec : EqDecision collection_name.
Proof. solve_decision. Defined.
Global Instance operation_eq_dec : EqDecision operation.
Proof. solve_decision. Defined.

Section Router.
Context {ObjectId : Type} `{Platform ObjectId}.

Record database : Type := Database {
  teachers_collection : list (document string);
  announcements_collection : list (document ObjectId);
}.

(** A handler runs from a database to an outcome, the database it leaves
    and the collection calls it made, in order. *)
Definition M (A : Type) : Type :=
  database → outcome A * database * list (collection_name * operation).

Definition ret {A} (a : A) : M A := λ db, (Return a, db, []).

Definition raise {A} (e : exn) : M A := λ db, (Raise e, db, []).

Definition bind {A B} (m : M A) (f : A → M B) : M B := λ db,
  match m db with
  | (Return a, db1, calls1) =>
      match f a db1 with
      | (r, db2, calls2) => (r, db2, calls1 ++ calls2)
      end
  | (Raise e, db1, calls1) => (Raise e, db1, calls1)
  end.

(** [try: m except Exception as e: h e] *)
Definition try_except {A} (m : M A) (h : exn → M A) : M A := λ db,
  match m db with
  | (Return a, db1, calls1) => (Return a, db1, calls1)
  | (Raise e, db1, calls1) =>
      match h e db1 with
      | (r, db2, calls2) => (r, db2, calls1 ++ calls2)
      end
  end.

Global Instance M_ret : MRet M := @ret.
Global Instance M_bind : MBind M := λ A B f m, bind m f.

(** *** Collection calls *)

Definition teachers_find_one (username : string)
  : M (option (document string)) := λ db,
  (Return (find_one username (teachers_collection db)), db,
   [(Teachers, FindOne)]).

Definition announcements_find_gte (field bound : string)
  : M (list (document ObjectId)) := λ db,
  (Return (find_gte field bound (announcements_collection db)), db,
   [(Announcements, Find)]).

Definition announcements_find_sort_desc (field : string)
  : M (list (document ObjectId)) := λ db,
  (Return (find_sort_desc field (announcements_collection db)), db,
   [(Announcements, Find)]).

Definition announcements_find_one (k : ObjectId)
  : M (option (document ObjectId)) := λ db,
  (Return (find_one k (announcements_collection db)), db,
   [(Announcements, FindOne)]).

Definition announcements_insert_one (new_id : ObjectId) (doc : pydict)
  : M ObjectId := λ db,
  match insert_one new_id doc (announcements_collection db) with
  | Some c =>
      (Return new_id, Database (teachers_collection db) c,
       [(Announcements, InsertOne)])
  | None => (Raise DuplicateKeyError, db, [(Announcements, InsertOne)])
  end.

Definition announcements_update_one (k : ObjectId) (upd : pydict)
  : M nat := λ db,
  match update_one k upd (announcements_collection db) with
  | (c, matched_count) =>
      (Return matched_count, Database (teachers_collection db) c,
       [(Announcements, UpdateOne)])
  end.

Definition announcements_delete_one (k : ObjectId) : M nat := λ db,
  match delete_one k (announcements_collection db) with
  | (c, deleted_count) =>
      (Return deleted_count, Database (teachers_collection db) c,
       [(Announcements, DeleteOne)])
  end.

(** [ObjectId(s)] *)
Definition ObjectId_ (s : string) : M ObjectId :=
  match ObjectId_of_str s with
  | Some oid => ret oid
  | None => raise (InvalidId s)
  end.

(** *** Shared helpers *)

(** The dictionary [find_one] hands back for a teacher, and [teacher] as
    the condition of [if not teacher]. *)
Definition teacher_dict (d : document string) : pydict :=
  <["_id" := Some (_id d)]> (fields d).

Definition teacher_truthy (teacher : option (document string)) : bool :=
  match teacher with
  | Some d => dict_truthy (teacher_dict d)
  | None => false
  end.

(** [announcement["_id"] = str(announcement["_id"])] *)
Definition stringify_id (d : document ObjectId) : pydict :=
  <["_id" := Some (str_of_ObjectId (_id d))]> (fields d).

(** *** The handlers *)

(** [GET /announcements/active], at the clock reading [current_date]
    ([datetime.now().strftime("%Y-%m-%d")]). *)
Definition get_active_announcements (current_date : string)
  : M (list pydict) :=
  announcements ← announcements_find_gte "expiration_date" current_date;
  let active_announcements :=
    foldl (λ active announcement,
             match dict_get (fields announcement) "start_date" with
             | Some start_date =>
                 if truthy (Some start_date) then
                   if String.leb start_date current_date
                   then active ++ [announcement]
                   else active
                 else active ++ [announcement]
             | None => active ++ [announcement]
             end) [] announcements in
  mret (stringify_id <$> active_announcements).

(** [GET /announcements/all] *)
Definition get_all_announcements (username : string) : M (list pydict) :=
  teacher ← teachers_find_one username;
  if negb (teacher_truthy teacher)
  then raise (HTTPException 401 "Unauthorized")
  else
    announcements ← announcements_find_sort_desc "created_at";
    mret (stringify_id <$> announcements).

(** [POST /announcements/], at the clock reading [now]
    ([datetime.now().isoformat()]) and with [new_id] the identifier the
    driver generates for the inserted document. *)
Definition create_announcement (now : string) (new_id : ObjectId)
    (announcement : AnnouncementCreate.t) : M pydict :=
  teacher ← teachers_find_one (AnnouncementCreate.created_by announcement);
  if negb (teacher_truthy teacher)
  then raise (HTTPException 401 "Unauthorized")
  else
    let announcement_doc : pydict :=
      list_to_map
        [("message", Some (AnnouncementCreate.message announcement));
         ("start_date", AnnouncementCreate.start_date announcement);
         ("expiration_date",
           Some (AnnouncementCreate.expiration_date announcement));
         ("created_by", Some (AnnouncementCreate.created_by announcement));
         ("created_at", Some now)] in
    inserted_id ← announcements_insert_one new_id announcement_doc;
    mret (<["_id" := Some (str_of_ObjectId inserted_id)]> announcement_doc).

(** The [update_doc] that [update_announcement] builds from the body. *)
Definition build_update_doc (announcement : AnnouncementUpdate.t) : pydict :=
  let update_doc : pydict := ∅ in
  let update_doc :=
    match AnnouncementUpdate.message announcement with
    | Some v => <["message" := Some v]> update_doc
    | None => update_doc
    end in
  let update_doc :=
    match AnnouncementUpdate.start_date announcement with
    | Some v => <["start_date" := Some v]> update_doc
    | None => update_doc
    end in
  let update_doc :=
    match AnnouncementUpdate.expiration_date announcement with
    | Some v => <["expiration_date" := Some v]> update_doc
    | None => update_doc
    end in
  update_doc.

(** [PUT /announcements/{announcement_id}] *)
Definition update_announcement (announcement_id : string)
    (announcement : AnnouncementUpdate.t) (username : string) : M pydict :=
  teacher ← teachers_find_one username;
  if negb (teacher_truthy teacher)
  then raise (HTTPException 401 "Unauthorized")
  else
    let update_doc := build_update_doc announcement in
    if negb (dict_truthy update_doc)
    then raise (HTTPException 400 "No fields to update")
    else
      try_except
        (oid ← ObjectId_ announcement_id;
         matched_count ← announcements_update_one oid update_doc;
         if Nat.eqb matched_count 0
         then raise (HTTPException 404 "Announcement not found")
         else
           oid' ← ObjectId_ announcement_id;
           updated_announcement ← announcements_find_one oid';
           match updated_announcement with
           | Some d => mret (stringify_id d)
           | None => raise TypeError
           end)
        (λ e, raise (HTTPException 400
                       ("Invalid announcement ID: " +:+ str_of_exn e))).

(** [DELETE /announcements/{announcement_id}] *)
Definition delete_announcement (announcement_id username : string)
  : M (gmap string string) :=
  teacher ← teachers_find_one username;
  if negb (teacher_truthy teacher)
  then raise (HTTPException 401 "Unauthorized")
  else
    try_except
      (oid ← ObjectId_ announcement_id;
       deleted_count ← announcements_delete_one oid;
       if Nat.eqb deleted_count 0
       then raise (HTTPException 404 "Announcement not found")
       else mret {["message" := "Announcement deleted successfully"]})
      (λ e, raise (HTTPException 400
                     ("Invalid announcement ID: " +:+ str_of_exn e))).
End Router.

Arguments database ObjectId : clear implicits.
Arguments M ObjectId A : clear implicits.

(** ** A concrete platform

    [bson.ObjectId] on strings, and the texts of the exceptions that the
    [try] blocks of the handlers can catch. *)

(** An identifier, as the hexadecimal digits (lower case) of its bytes, which
    is what [str] gives. *)
Inductive hex_id : Type := HexId (digits : string).

Global Instance hex_id_eq_dec : EqDecision hex_id.
Proof. solve_decision. Defined.

Definition lower_hex_digit (c : Ascii.ascii) : option Ascii.ascii :=
  let n := Ascii.nat_of_ascii c in
  if bool_decide (48 ≤ n ≤ 57) then Some c
  else if bool_decide (97 ≤ n ≤ 102) then Some c
  else if bool_decide (65 ≤ n ≤ 70) then Some (Ascii.ascii_of_nat (n + 32))
  else None.

(** ASCII whitespace: space, [\t], [\n], [\v], [\f], [\r]. *)
Definition is_space (c : Ascii.ascii) : bool :=
  let n := Ascii.nat_of_ascii c in
  bool_decide (n = 32 ∨ 9 ≤ n ≤ 13).

(** [bytes.fromhex(s)], its result written as hexadecimal digits: two digits
    per byte, with whitespace skipped between bytes but not inside one;
    [None] where it raises [ValueError]. *)
Fixpoint fromhex (s : string) : option string :=
  match s with
  | EmptyString => Some EmptyString
  | String c s' =>
      if is_space c then fromhex s'
      else
        match s' with
        | EmptyString => None
        | String c' s'' =>
            top ← lower_hex_digit c;
            bot ← lower_hex_digit c';
            r ← fromhex s'';
            Some (String top (String bot r))
        end
  end.

(** [ObjectId(s)] for a string: a string of 24 characters goes to
    [bytes.fromhex], every other one is invalid.  A character outside ASCII
    takes several bytes of the string here and is no digit, so such a
    string is invalid here as it is there. *)
Definition hex_id_of_str (s : string) : option hex_id :=
  if bool_decide (String.length s = 24) then HexId <$> fromhex s else None.

Definition hex_digit (n : nat) : Ascii.ascii :=
  if bool_decide (n < 10) then Ascii.ascii_of_nat (48 + n)
  else Ascii.ascii_of_nat (87 + n).

Fixpoint contains (q : nat) (s : string) : bool :=
  match s with
  | EmptyString => false
  | String c s' => bool_decide (Ascii.nat_of_ascii c = q) || contains q s'
  end.

(** One character of [repr(s)] between quotes [q]: the quote and the
    backslash are escaped, so are the control characters; the bytes of a
    character outside ASCII are kept, as [repr] keeps a printable one. *)
Definition repr_char (q : nat) (c : Ascii.ascii) : string :=
  let n := Ascii.nat_of_ascii c in
  if bool_decide (n = q ∨ n = 92)
  then String (Ascii.ascii_of_nat 92) (String c EmptyString)
  else if bool_decide (n = 9) then "\t"
  else if bool_decide (n = 10) then "\n"
  else if bool_decide (n = 13) then "\r"
  else if bool_decide (n < 32 ∨ n = 127)
  then "\x" +:+ String (hex_digit (n / 16))
                   (String (hex_digit (n mod 16)) EmptyString)
  else String c EmptyString.

Fixpoint repr_chars (q : nat) (s : string) : string :=
  match s with
  | EmptyString => EmptyString
  | String c s' => repr_char q c +:+ repr_chars q s'
  end.

(** [repr(s)]: single quotes, unless the string has a single quote and no
    double quote. *)
Definition repr (s : string) : string :=
  let q := if contains 39 s && negb (contains 34 s) then 34 else 39 in
  String (Ascii.ascii_of_nat q)
    (repr_chars q s +:+ String (Ascii.ascii_of_nat q) EmptyString).

(** [str(e)].  An [HTTPException] reads as its status and detail; [InvalidId]
    carries the message [ObjectId] builds with [%r]; the [TypeError] is that
    of subscripting [None].  The handler that inserts has no [try] block, so
    the text of [DuplicateKeyError], of which only the head is given, is
    never asked for. *)
Definition hex_str_of_exn (e : exn) : string :=
  match e with
  | HTTPException status_code detail => pretty status_code +:+ ": " +:+ detail
  | InvalidId oid =>
      repr oid +:+ " is not a valid ObjectId, it must be a 12-byte input or a 24-character hex string"
  | TypeError => "'NoneType' object is not subscriptable"
  | DuplicateKeyError => "E11000 duplicate key error"
  end.

Global Instance hex_platform : Platform hex_id := {
  ObjectId_of_str := hex_id_of_str;
  str_of_ObjectId := λ '(HexId digits), digits;
  str_of_exn := hex_str_of_exn;
}.

(** A small database: one teacher, two announcements. *)
Definition sample_teachers : list (document string) :=
  [Document "mrodriguez" {["display_name" := Some "Ms. Rodriguez"]}].

Definition exam_doc : document hex_id :=
  Document (HexId "507f1f77bcf86cd799439011")
    (list_to_map [("message", Some "Exam tomorrow");
                  ("start_date", None);
                  ("expiration_date", Some "2099-01-01");
                  ("created_by", Some "mrodriguez");
                  ("created_at", Some "2025-01-10T08:00:00.000000")]).

Definition fair_doc : document hex_id :=
  Document (HexId "507f1f77bcf86cd799439012")
    (list_to_map [("message", Some "Science fair");
                  ("start_date", Some "2025-03-01");
                  ("expiration_date", Some "2025-03-31");
                  ("created_by", Some "mrodriguez");
                  ("created_at", Some "2025-02-20T09:30:00.000000")]).

Definition sample_announcements : list (document hex_id) :=
  [exam_doc; fair_doc].

Definition sample_db : database hex_id :=
  Database sample_teachers sample_announcements.

(** * Properties *)

(** ** Lexical order on strings *)

Lemma ascii_compare_refl (a : Ascii.ascii) : Ascii.compare a a = Eq.
Proof. unfold Ascii.compare. apply N.compare_refl. Qed.

Lemma string_leb_refl (s : string) : String.leb s s = true.
Proof.
  unfold String.leb.
  assert (Hc : String.compare s s = Eq).
  { induction s as [|a s IH]; simpl; [done|]. by rewrite ascii_compare_refl. }
  by rewrite Hc.
Qed.

Lemma string_compare_trans_le (x y z : string) :
  String.compare x y ≠ Gt → String.compare y z ≠ Gt → String.compare x z ≠ Gt.
Proof.
  revert y z. induction x as [|a x IH]; intros [|b y] [|c z]; simpl; try done.
  unfold Ascii.compare.
  destruct (N.compare_spec (Ascii.N_of_ascii a) (Ascii.N_of_ascii b)) as [Hab|Hab|Hab];
    destruct (N.compare_spec (Ascii.N_of_ascii b) (Ascii.N_of_ascii c)) as [Hbc|Hbc|Hbc];
    try done; intros H1 H2.
  - rewrite Hab, Hbc, N.compare_refl. by eapply IH.
  - rewrite Hab. by apply N.compare_lt_iff in Hbc as ->.
  - rewrite <- Hbc. by apply N.compare_lt_iff in Hab as ->.
  - assert (Hac : (Ascii.N_of_ascii a < Ascii.N_of_ascii c)%N) by lia.
    by apply N.compare_lt_iff in Hac as ->.
Qed.

Lemma string_leb_trans (x y z : string) :
  String.leb x y = true → String.leb y z = true → String.leb x z = true.
Proof.
  unfold String.leb. intros H1 H2.
  pose proof (string_compare_trans_le x y z) as Ht.
  destruct (String.compare x y), (String.compare y z), (String.compare x z);
    try done; exfalso; by apply Ht.
Qed.


Global Instance key_le_total : Total key_le.
Proof.
  intros [x|] [y|]; simpl; auto. apply String.leb_total.
Qed.

Global Instance key_le_trans : Transitive key_le.
Proof.
  intros [x|] [y|] [z|]; simpl; try done. apply string_leb_trans.
Qed.

Global Instance descending_total field {K} : Total (@descending field K).
Proof. intros d1 d2. unfold descending. destruct (total key_le (dict_get (fields d1) field) (dict_get (fields d2) field)); auto. Qed.

Global Instance descending_trans field {K} : Transitive (@descending field K).
Proof. intros d1 d2 d3 H12 H23. unfold descending in *. by etrans. Qed.

(** ** Collections *)

Section CollectionFacts.
Context {K : Type} `{EqDecision K}.
Implicit Types (c : list (document K)) (d : document K) (k : K).

(** A collection holds the identifier [k]. *)
Definition holds c k : Prop := ∃ d, d ∈ c ∧ _id d = k.

Global Instance holds_dec c k : Decision (holds c k).
Proof.
  refine (cast_if (decide (Exists (λ d, _id d = k) c)));
    unfold holds; rewrite Exists_exists in *; naive_solver.
Defined.

Lemma find_one_holds k c : holds c k → ∃ d, find_one k c = Some d ∧ _id d = k.
Proof.
  intros (d & Hd & Hk). unfold find_one.
  destruct (list_find_elem_of (λ d, _id d = k) c d Hd Hk) as [[i d'] Hf].
  rewrite Hf. exists d'. split; [done|].
  by apply list_find_Some in Hf as (_ & ? & _).
Qed.

Lemma find_one_not_holds k c : ¬ holds c k → find_one k c = None.
Proof.
  intros Hn. unfold find_one.
  destruct (list_find _ c) as [[i d]|] eqn:Hf; [|done].
  apply list_find_Some in Hf as (Hi & ? & _).
  destruct Hn. exists d. split; [|done]. by eapply list_elem_of_lookup_2.
Qed.

Lemma list_find_not_holds k c :
  ¬ holds c k → list_find (λ d, _id d = k) c = None.
Proof.
  intros Hn. pose proof (find_one_not_holds k c Hn) as Hf.
  unfold find_one in Hf. by destruct (list_find _ c).
Qed.

Lemma list_find_holds k c :
  holds c k →
  ∃ i d, list_find (λ d, _id d = k) c = Some (i, d) ∧ c !! i = Some d ∧ _id d = k.
Proof.
  intros (d & Hd & Hk).
  destruct (list_find_elem_of (λ d, _id d = k) c d Hd Hk) as [[i d'] Hf].
  exists i, d'. split; [done|].
  by apply list_find_Some in Hf as (? & ? & _).
Qed.

(** Replacing the first document that has the identifier [k] by another one
    with the same identifier keeps it the first. *)
Lemma list_find_insert_same k c i d d' :
  list_find (λ d, _id d = k) c = Some (i, d) → _id d' = k →
  list_find (λ d, _id d = k) (<[i := d']> c) = Some (i, d').
Proof.
  intros (Hi & Hk & Hleast)%list_find_Some Hk'.
  apply list_find_Some. split_and!.
  - apply list_lookup_insert_eq. by eapply lookup_lt_Some.
  - done.
  - intros j y Hj Hlt. rewrite list_lookup_insert_ne in Hj by lia. eauto.
Qed.
End CollectionFacts.

(** Runs the monad's plumbing. *)
Ltac run :=
  unfold mbind, M_bind, mret, M_ret, bind, ret, raise, try_except,
    teachers_find_one, announcements_find_gte, announcements_find_sort_desc,
    announcements_find_one, announcements_insert_one,
    announcements_update_one, announcements_delete_one, ObjectId_;
  cbv beta iota zeta.

(** Takes the branch of a test that has been rewritten to a value. *)
Ltac step := run; cbn [negb Nat.eqb]; cbv beta iota zeta.

(** ** What the specification calls an active announcement

    Its [expiration_date] is lexically at or after the current date, and its
    [start_date] is absent (missing or null) or lexically at or before the
    current date. *)

Definition not_expired (today : string) {K} (d : document K) : Prop :=
  ∃ e, fields d !! "expiration_date" = Some (Some e) ∧ String.leb today e = true.

Definition started (today : string) {K} (d : document K) : Prop :=
  dict_get (fields d) "start_date" = None
  ∨ ∃ s, dict_get (fields d) "start_date" = Some s ∧ String.leb s today = true.

Definition active_on (today : string) {K} (d : document K) : Prop :=
  not_expired today d ∧ started today d.

Global Instance not_expired_dec today {K} (d : document K) :
  Decision (not_expired today d).
Proof.
  unfold not_expired.
  destruct (fields d !! "expiration_date") as [[e|]|].
  - destruct (decide (String.leb today e = true)) as [Hle|Hle].
    + left. by exists e.
    + right. intros (e' & [= <-] & ?). done.
  - right. intros (e' & ? & _). done.
  - right. intros (e' & ? & _). done.
Defined.

Global Instance started_dec today {K} (d : document K) :
  Decision (started today d).
Proof.
  unfold started.
  destruct (dict_get (fields d) "start_date") as [s|].
  - destruct (decide (String.leb s today = true)) as [Hle|Hle].
    + left. right. by exists s.
    + right. intros [?|(s' & [= <-] & ?)]; done.
  - left. by left.
Defined.

Global Instance active_on_dec today {K} (d : document K) :
  Decision (active_on today d).
Proof. unfold active_on. apply _. Defined.

Section Properties.
Context {ObjectId : Type} `{Platform ObjectId}.
Implicit Types (db : database ObjectId) (username : string).

(** The username is in the Teacher Directory. *)
Definition is_teacher db username : Prop :=
  holds (teachers_collection db) username.

Global Instance is_teacher_dec db username : Decision (is_teacher db username).
Proof. unfold is_teacher. apply _. Defined.

(** [if not teacher] tests whether a teacher was found: the dictionary of a
    found teacher has its [_id] and so is not empty. *)
Lemma teacher_truthy_is_Some (teacher : option (document string)) :
  teacher_truthy teacher = true ↔ is_Some teacher.
Proof.
  destruct teacher as [d|]; simpl.
  - split; [eauto|]. intros _. unfold dict_truthy, teacher_dict.
    rewrite bool_decide_eq_false_2; [done|]. apply insert_non_empty.
  - split; [done|]. by intros [? ?].
Qed.

Lemma teacher_found db username :
  is_teacher db username →
  ∃ d, find_one username (teachers_collection db) = Some d
       ∧ teacher_truthy (Some d) = true.
Proof.
  intros (d & Hd & _)%find_one_holds. exists d. split; [done|].
  by apply teacher_truthy_is_Some.
Qed.

Lemma teacher_not_found db username :
  ¬ is_teacher db username →
  find_one username (teachers_collection db) = None.
Proof. apply find_one_not_holds. Qed.

(** The handlers that authenticate stop at the check for an unknown
    caller: one lookup in the Teacher Directory, nothing else. *)
Lemma update_unknown_caller db announcement_id announcement username :
  ¬ is_teacher db username →
  update_announcement announcement_id announcement username db
  = (Raise (HTTPException 401 "Unauthorized"), db, [(Teachers, FindOne)]).
Proof.
  intros Hn. unfold update_announcement. run.
  by rewrite (teacher_not_found _ _ Hn).
Qed.

Lemma delete_unknown_caller db announcement_id username :
  ¬ is_teacher db username →
  delete_announcement announcement_id username db
  = (Raise (HTTPException 401 "Unauthorized"), db, [(Teachers, FindOne)]).
Proof.
  intros Hn. unfold delete_announcement. run.
  by rewrite (teacher_not_found _ _ Hn).
Qed.

(** The body has no non-null field exactly when [update_doc] stays empty. *)
Definition empty_patch (announcement : AnnouncementUpdate.t) : Prop :=
  AnnouncementUpdate.message announcement = None
  ∧ AnnouncementUpdate.start_date announcement = None
  ∧ AnnouncementUpdate.expiration_date announcement = None.

Lemma build_update_doc_empty announcement :
  build_update_doc announcement = ∅ ↔ empty_patch announcement.
Proof.
  destruct announcement as [[m|] [s|] [e|]];
    unfold build_update_doc, empty_patch; simpl; split;
    try done; try (by intros (? & ? & ?));
    intros Hins; exfalso; revert Hins; apply insert_non_empty.
Qed.

(** C8: for a caller that is not in the Teacher Directory, update and
    delete fail with 401 Unauthorized whatever the body and the identifier
    are (an empty body, a malformed identifier), leave the database as it
    was, and make no call on the announcements collection: the lookup of
    the teacher is their only collection call. *)
Theorem unauthorized_takes_precedence db announcement_id announcement username :
  ¬ is_teacher db username →
  update_announcement announcement_id announcement username db
  = (Raise (HTTPException 401 "Unauthorized"), db, [(Teachers, FindOne)])
  ∧ delete_announcement announcement_id username db
    = (Raise (HTTPException 401 "Unauthorized"), db, [(Teachers, FindOne)]).
Proof.
  intros Hn. split.
  - by apply update_unknown_caller.
  - by apply delete_unknown_caller.
Qed.

(** C7: an update by a known caller whose body has no non-null field fails
    with 400 "No fields to update"; the database is left as it was and the
    announcements collection is not called. *)
Theorem update_empty_patch db announcement_id announcement username :
  is_teacher db username →
  empty_patch announcement →
  update_announcement announcement_id announcement username db
  = (Raise (HTTPException 400 "No fields to update"), db,
     [(Teachers, FindOne)]).
Proof.
  intros (d & Hd & Ht)%teacher_found Hempty%build_update_doc_empty.
  unfold update_announcement. run. rewrite Hd, Ht, Hempty.
  unfold dict_truthy. by rewrite bool_decide_eq_true_2.
Qed.

(** ** Listing *)

(** The loop of [get_active_announcements] appends the started documents,
    in order. *)
Lemma active_loop today (l acc : list (document ObjectId)) :
  foldl (λ active announcement,
           match dict_get (fields announcement) "start_date" with
           | Some start_date =>
               if truthy (Some start_date) then
                 if String.leb start_date today
                 then active ++ [announcement]
                 else active
               else active ++ [announcement]
           | None => active ++ [announcement]
           end) acc l
  = acc ++ filter (started today) l.
Proof.
  revert acc. induction l as [|a l IH]; intros acc; simpl.
  { by rewrite app_nil_r. }
  rewrite IH. rewrite filter_cons.
  destruct (decide (started today a)) as [Hs|Hs]; unfold started in Hs.
  - destruct (dict_get (fields a) "start_date") as [s|] eqn:Hg.
    + destruct Hs as [?|(s' & [= <-] & Hle)]; [done|]. rewrite Hle.
      simpl. destruct (negb (String.eqb s "")); by rewrite <- app_assoc.
    + by rewrite <- app_assoc.
  - destruct (dict_get (fields a) "start_date") as [s|] eqn:Hg.
    + destruct (String.leb s today) eqn:Hle.
      { destruct Hs. right. by exists s. }
      simpl. destruct (String.eqb s "") eqn:Heq; simpl; [|done].
      apply String.eqb_eq in Heq. subst s. destruct today; done.
    + destruct Hs. by left.
Qed.

Lemma find_gte_not_expired today (c : list (document ObjectId)) :
  find_gte "expiration_date" today c = filter (not_expired today) c.
Proof.
  unfold find_gte. induction c as [|a c IH]; simpl; [done|].
  rewrite filter_cons, IH.
  destruct (decide (not_expired today a)) as [(e & He & Hle)|Hn];
    unfold matches_gte.
  - by rewrite He, Hle.
  - destruct (fields a !! "expiration_date") as [[e|]|] eqn:He; try done.
    destruct (String.leb today e) eqn:Hle; [|done].
    destruct Hn. by exists e.
Qed.

Lemma get_active_announcements_filter db today :
  get_active_announcements today db
  = (Return (stringify_id
               <$> filter (active_on today) (announcements_collection db)),
     db, [(Announcements, Find)]).
Proof.
  unfold get_active_announcements. run.
  rewrite active_loop, find_gte_not_expired. simpl.
  rewrite list_filter_filter.
  rewrite (list_filter_iff _ (active_on today)); [done|].
  intros d. unfold active_on. tauto.
Qed.




(** C4: [get_all_announcements] fails with 401 Unauthorized exactly when
    the username is not in the Teacher Directory; for a known username it
    returns all the stored announcements, ordered by [created_at] with the
    larger first, each with its identifier rendered as a string: the
    dictionary returned at a position has, under ["_id"], the string
    [str(_id)] of the document at that position, and under every other key
    what the document has. *)
Theorem list_all_spec db username :
  ((get_all_announcements username db).1.1
     = Raise (HTTPException 401 "Unauthorized")
   ↔ ¬ is_teacher db username)
  ∧ (is_teacher db username →
     ∃ l rs,
       get_all_announcements username db
       = (Return rs, db, [(Teachers, FindOne); (Announcements, Find)])
       ∧ rs = (λ d, <["_id" := Some (str_of_ObjectId (_id d))]> (fields d))
                <$> l
       ∧ l ≡ₚ announcements_collection db
       ∧ StronglySorted (descending "created_at") l
       ∧ ∀ i d, l !! i = Some d →
           ∃ r, rs !! i = Some r
                ∧ r !! "_id" = Some (Some (str_of_ObjectId (_id d)))
                ∧ ∀ k, k ≠ "_id" → r !! k = fields d !! k).
Proof.
  assert (Hknown : is_teacher db username →
     get_all_announcements username db
     = (Return (stringify_id
                  <$> find_sort_desc "created_at" (announcements_collection db)),
        db, [(Teachers, FindOne); (Announcements, Find)])).
  { intros (d & Hd & Ht)%teacher_found.
    unfold get_all_announcements. run. by rewrite Hd, Ht. }
  split.
  - split.
    + intros Hr Ht. rewrite (Hknown Ht) in Hr. done.
    + intros Hn. unfold get_all_announcements. run.
      by rewrite (teacher_not_found _ _ Hn).
  - intros Ht.
    exists (find_sort_desc "created_at" (announcements_collection db)),
      (stringify_id
         <$> find_sort_desc "created_at" (announcements_collection db)).
    split_and!.
    + by apply Hknown.
    + reflexivity.
    + apply merge_sort_Permutation.
    + apply StronglySorted_merge_sort; apply _.
    + intros i d Hi. exists (stringify_id d).
      rewrite list_lookup_fmap, Hi. unfold stringify_id. split_and!.
      * done.
      * apply lookup_insert_eq.
      * intros k Hk. by apply lookup_insert_ne.
Qed.

(** ** Creating *)

(** C5: when [created_by] is not in the Teacher Directory,
    [create_announcement] fails with 401 Unauthorized and the database is
    left as it was, the announcements collection not even being called.
    When it is, and the generated identifier is not in use, one document
    is appended to the collection, with the five fields of the request and
    the clock reading, and it is returned with its identifier rendered. *)
Theorem create_spec db now new_id announcement :
  (¬ is_teacher db (AnnouncementCreate.created_by announcement) →
   create_announcement now new_id announcement db
   = (Raise (HTTPException 401 "Unauthorized"), db, [(Teachers, FindOne)]))
  ∧ (is_teacher db (AnnouncementCreate.created_by announcement) →
     ¬ holds (announcements_collection db) new_id →
     ∃ doc,
       create_announcement now new_id announcement db
       = (Return (stringify_id doc),
          Database (teachers_collection db)
                   (announcements_collection db ++ [doc]),
          [(Teachers, FindOne); (Announcements, InsertOne)])
       ∧ _id doc = new_id
       ∧ fields doc !! "message"
         = Some (Some (AnnouncementCreate.message announcement))
       ∧ fields doc !! "start_date"
         = Some (AnnouncementCreate.start_date announcement)
       ∧ fields doc !! "expiration_date"
         = Some (Some (AnnouncementCreate.expiration_date announcement))
       ∧ fields doc !! "created_by"
         = Some (Some (AnnouncementCreate.created_by announcement))
       ∧ fields doc !! "created_at" = Some (Some now)).
Proof.
  split.
  - intros Hn. unfold create_announcement. run.
    by rewrite (teacher_not_found _ _ Hn).
  - intros (t & Ht & Htruthy)%teacher_found Hfresh%find_one_not_holds.
    unfold create_announcement. run. rewrite Ht, Htruthy. step.
    unfold insert_one. rewrite Hfresh. step.
    eexists (Document new_id _). split; [reflexivity|].
    simpl. split_and!; by simplify_map_eq.
Qed.

(** ** Updating *)

(** The value the body gives for a key, if any. *)
Definition patch_value (announcement : AnnouncementUpdate.t) (k : string)
  : option string :=
  if decide (k = "message") then AnnouncementUpdate.message announcement
  else if decide (k = "start_date")
  then AnnouncementUpdate.start_date announcement
  else if decide (k = "expiration_date")
  then AnnouncementUpdate.expiration_date announcement
  else None.

Lemma build_update_doc_lookup announcement k :
  build_update_doc announcement !! k = Some <$> patch_value announcement k.
Proof.
  destruct announcement as [[m|] [s|] [e|]];
    unfold build_update_doc, patch_value; simpl;
    repeat case_decide; by simplify_map_eq.
Qed.

Lemma set_fields_lookup announcement (old : pydict) k :
  (build_update_doc announcement ∪ old) !! k
  = match patch_value announcement k with
    | Some v => Some (Some v)
    | None => old !! k
    end.
Proof.
  rewrite lookup_union, build_update_doc_lookup.
  by destruct (patch_value announcement k), (old !! k).
Qed.

Lemma database_eta db :
  Database (teachers_collection db) (announcements_collection db) = db.
Proof. by destruct db. Qed.

Lemma nonempty_update_doc announcement :
  ¬ empty_patch announcement →
  dict_truthy (build_update_doc announcement) = true.
Proof.
  intros Hn. unfold dict_truthy. rewrite bool_decide_eq_false_2; [done|].
  by rewrite build_update_doc_empty.
Qed.

(** A well-formed identifier that no stored document has: the 404 raised
    inside the [try] block is caught by its [except Exception] and leaves
    as a 400. *)
Lemma update_not_found db announcement_id oid announcement username :
  is_teacher db username →
  ¬ empty_patch announcement →
  ObjectId_of_str announcement_id = Some oid →
  ¬ holds (announcements_collection db) oid →
  update_announcement announcement_id announcement username db
  = (Raise (HTTPException 400
              ("Invalid announcement ID: "
               +:+ str_of_exn (HTTPException 404 "Announcement not found"))),
     db, [(Teachers, FindOne); (Announcements, UpdateOne)]).
Proof.
  intros (t & Ht & Htruthy)%teacher_found Hpatch%nonempty_update_doc
         Hoid Hn%list_find_not_holds.
  unfold update_announcement. run. rewrite Ht, Htruthy. step.
  rewrite Hpatch. step. rewrite Hoid. step.
  unfold update_one. rewrite Hn. step. by rewrite database_eta.
Qed.

(** A malformed identifier: [ObjectId] raises, the collection is not
    called. *)
Lemma update_malformed_id db announcement_id announcement username :
  is_teacher db username →
  ¬ empty_patch announcement →
  ObjectId_of_str announcement_id = None →
  update_announcement announcement_id announcement username db
  = (Raise (HTTPException 400
              ("Invalid announcement ID: "
               +:+ str_of_exn (InvalidId announcement_id))),
     db, [(Teachers, FindOne)]).
Proof.
  intros (t & Ht & Htruthy)%teacher_found Hpatch%nonempty_update_doc Hoid.
  unfold update_announcement. run. rewrite Ht, Htruthy. step.
  rewrite Hpatch. step. by rewrite Hoid.
Qed.

(** C6: an update by a known caller, with a body that has a non-null
    field, of an identifier that is stored, succeeds and replaces one
    document.  Of that document the identifier is kept, each key the body
    gives a value for gets that value, and every other key is as it was;
    every other document and the Teacher Directory are as they were; the
    new document is what is returned.  In particular for the body
    [{message: x}] only [message] changes. *)
Theorem update_partial db announcement_id oid announcement username :
  is_teacher db username →
  ¬ empty_patch announcement →
  ObjectId_of_str announcement_id = Some oid →
  holds (announcements_collection db) oid →
  ∃ i d d',
    announcements_collection db !! i = Some d
    ∧ _id d = oid ∧ _id d' = oid
    ∧ update_announcement announcement_id announcement username db
      = (Return (stringify_id d'),
         Database (teachers_collection db)
                  (<[i := d']> (announcements_collection db)),
         [(Teachers, FindOne); (Announcements, UpdateOne);
          (Announcements, FindOne)])
    ∧ (∀ k, fields d' !! k
            = match patch_value announcement k with
              | Some v => Some (Some v)
              | None => fields d !! k
              end)
    ∧ (∀ j, j ≠ i →
            <[i := d']> (announcements_collection db) !! j
            = announcements_collection db !! j)
    ∧ (∀ x, announcement = AnnouncementUpdate.Build (Some x) None None →
            fields d' !! "message" = Some (Some x)
            ∧ ∀ k, k ≠ "message" → fields d' !! k = fields d !! k).
Proof.
  intros (t & Ht & Htruthy)%teacher_found Hpatch%nonempty_update_doc
         Hoid (i & d & Hfind & Hi & Hd)%list_find_holds.
  set (d' := Document (_id d) (build_update_doc announcement ∪ fields d)).
  assert (Hd' : _id d' = oid) by done.
  exists i, d, d'. split_and!; try done.
  - unfold update_announcement. run. rewrite Ht, Htruthy. step.
    rewrite Hpatch. step. rewrite Hoid. step.
    unfold update_one. rewrite Hfind. step.
    unfold find_one. cbn [announcements_collection]. fold d'.
    by rewrite (list_find_insert_same oid _ i d d' Hfind Hd').
  - intros k. apply set_fields_lookup.
  - intros j Hj. by apply list_lookup_insert_ne.
  - intros x ->. split.
    + unfold d'. cbn [fields]. rewrite set_fields_lookup.
      unfold patch_value. by rewrite decide_True.
    + intros k Hk. unfold d'. cbn [fields]. rewrite set_fields_lookup.
      unfold patch_value. cbn [AnnouncementUpdate.message
        AnnouncementUpdate.start_date AnnouncementUpdate.expiration_date].
      by repeat case_decide.
Qed.

(** ** Deleting *)

Lemma delete_found db announcement_id oid username :
  is_teacher db username →
  ObjectId_of_str announcement_id = Some oid →
  holds (announcements_collection db) oid →
  ∃ i d,
    announcements_collection db !! i = Some d ∧ _id d = oid
    ∧ delete_announcement announcement_id username db
      = (Return {["message" := "Announcement deleted successfully"]},
         Database (teachers_collection db)
                  (delete i (announcements_collection db)),
         [(Teachers, FindOne); (Announcements, DeleteOne)]).
Proof.
  intros (t & Ht & Htruthy)%teacher_found Hoid
         (i & d & Hfind & Hi & Hd)%list_find_holds.
  exists i, d. split_and!; try done.
  unfold delete_announcement. run. rewrite Ht, Htruthy. step.
  rewrite Hoid. step. unfold delete_one. by rewrite Hfind.
Qed.

(** As in [update_not_found], the 404 leaves as a 400. *)
Lemma delete_not_found db announcement_id oid username :
  is_teacher db username →
  ObjectId_of_str announcement_id = Some oid →
  ¬ holds (announcements_collection db) oid →
  delete_announcement announcement_id username db
  = (Raise (HTTPException 400
              ("Invalid announcement ID: "
               +:+ str_of_exn (HTTPException 404 "Announcement not found"))),
     db, [(Teachers, FindOne); (Announcements, DeleteOne)]).
Proof.
  intros (t & Ht & Htruthy)%teacher_found Hoid Hn%list_find_not_holds.
  unfold delete_announcement. run. rewrite Ht, Htruthy. step.
  rewrite Hoid. step. unfold delete_one. rewrite Hn. step.
  by rewrite database_eta.
Qed.

(** ** The Teacher Directory *)

(** The calls a handler made on the teachers collection. *)
Definition teacher_calls (calls : list (collection_name * operation))
  : list (collection_name * operation) :=
  filter (λ c, c.1 = Teachers) calls.

(** Case analysis on every test a handler makes. *)
Ltac all_paths :=
  unfold insert_one, update_one, delete_one; run;
  repeat (case_match; step);
  unfold ret, raise in *; simplify_eq;
  cbn [fst snd teachers_collection]; try done.

(** C10: every handler leaves the teachers collection as it found it,
    whether it returns or raises, and the four handlers that authenticate
    make exactly one call on it, a [find_one]. *)
Theorem teacher_directory_unchanged db today now new_id username
    announcement_id create_body update_body :
  teachers_collection (get_active_announcements today db).1.2
  = teachers_collection db
  ∧ (teachers_collection (get_all_announcements username db).1.2
     = teachers_collection db
     ∧ teacher_calls (get_all_announcements username db).2
       = [(Teachers, FindOne)])
  ∧ (teachers_collection (create_announcement now new_id create_body db).1.2
     = teachers_collection db
     ∧ teacher_calls (create_announcement now new_id create_body db).2
       = [(Teachers, FindOne)])
  ∧ (teachers_collection
       (update_announcement announcement_id update_body username db).1.2
     = teachers_collection db
     ∧ teacher_calls
         (update_announcement announcement_id update_body username db).2
       = [(Teachers, FindOne)])
  ∧ (teachers_collection
       (delete_announcement announcement_id username db).1.2
     = teachers_collection db
     ∧ teacher_calls (delete_announcement announcement_id username db).2
       = [(Teachers, FindOne)]).
Proof.
  split_and!.
  - by rewrite get_active_announcements_filter.
  - unfold get_all_announcements. all_paths.
  - unfold get_all_announcements. all_paths.
  - unfold create_announcement. all_paths.
  - unfold create_announcement. all_paths.
  - unfold update_announcement. all_paths.
  - unfold update_announcement. all_paths.
  - unfold delete_announcement. all_paths.
  - unfold delete_announcement. all_paths.
Qed.
End Properties.

(** * The handlers on the sample database *)

(** Settles a decidable statement about concrete data by evaluation. *)
Ltac by_evaluation := apply (bool_decide_unpack _); vm_compute; exact I.

Definition missing_id : string := "507f1f77bcf86cd799439099".
Definition exam_id : string := "507f1f77bcf86cd799439011".
Definition message_x : AnnouncementUpdate.t :=
  AnnouncementUpdate.Build (Some "X") None None.
Definition no_fields : AnnouncementUpdate.t :=
  AnnouncementUpdate.Build None None None.

(** C1: on the sample database, an update by a known teacher with the body
    [{message: "X"}] of a well-formed identifier that no document has does
    not fail with 404: the handler answers 400 "Invalid announcement ID:
    404: Announcement not found", the status it also gives a malformed
    identifier. *)
Theorem update_missing_id_answers_400 :
  ObjectId_of_str missing_id = Some (HexId missing_id)
  ∧ ¬ holds sample_announcements (HexId missing_id)
  ∧ update_announcement missing_id message_x "mrodriguez" sample_db
    = (Raise (HTTPException 400
                "Invalid announcement ID: 404: Announcement not found"),
       sample_db, [(Teachers, FindOne); (Announcements, UpdateOne)])
  ∧ (update_announcement "not-an-id" message_x "mrodriguez" sample_db).1.1
    = Raise (HTTPException 400
               "Invalid announcement ID: 'not-an-id' is not a valid ObjectId, it must be a 12-byte input or a 24-character hex string").
Proof.
  split_and!.
  - vm_compute; reflexivity.
  - by_evaluation.
  - rewrite (update_not_found sample_db missing_id (HexId missing_id)).
    + vm_compute; reflexivity.
    + by_evaluation.
    + by intros (? & _).
    + vm_compute; reflexivity.
    + by_evaluation.
  - vm_compute; reflexivity.
Qed.

(** C2: on the sample database, deleting a stored announcement succeeds
    with the confirmation message and removes it; deleting the same
    identifier again does not fail with 404 but with 400 "Invalid
    announcement ID: 404: Announcement not found". *)
Theorem delete_twice_answers_400 :
  let first := delete_announcement exam_id "mrodriguez" sample_db in
  first.1.1 = Return {["message" := "Announcement deleted successfully"]}
  ∧ ¬ holds (announcements_collection first.1.2) (HexId exam_id)
  ∧ (delete_announcement exam_id "mrodriguez" first.1.2).1.1
    = Raise (HTTPException 400
               "Invalid announcement ID: 404: Announcement not found").
Proof.
  split_and!.
  - vm_compute; reflexivity.
  - by_evaluation.
  - vm_compute; reflexivity.
Qed.

(** ** The general statements at the sample database *)



Lemma list_all_spec_witness :
  is_teacher sample_db "mrodriguez"
  ∧ ∃ l rs,
      get_all_announcements "mrodriguez" sample_db
      = (Return rs, sample_db, [(Teachers, FindOne); (Announcements, Find)])
      ∧ rs = (λ d, <["_id" := Some (str_of_ObjectId (_id d))]> (fields d))
               <$> l
      ∧ l ≡ₚ announcements_collection sample_db
      ∧ StronglySorted (descending "created_at") l
      ∧ ∀ i d, l !! i = Some d →
          ∃ r, rs !! i = Some r
               ∧ r !! "_id" = Some (Some (str_of_ObjectId (_id d)))
               ∧ ∀ k, k ≠ "_id" → r !! k = fields d !! k.
Proof.
  assert (Hknown : is_teacher sample_db "mrodriguez") by by_evaluation.
  split; [done|].
  exact (proj2 (list_all_spec sample_db "mrodriguez") Hknown).
Defined.

Definition new_announcement : AnnouncementCreate.t :=
  AnnouncementCreate.Build "Picture day" None "2099-06-01" "mrodriguez".

Lemma create_spec_witness :
  is_teacher sample_db "mrodriguez"
  ∧ ¬ holds (announcements_collection sample_db) (HexId missing_id)
  ∧ ∃ doc,
      create_announcement "2025-03-15T10:00:00.000000" (HexId missing_id)
        new_announcement sample_db
      = (Return (stringify_id doc),
         Database (teachers_collection sample_db)
                  (announcements_collection sample_db ++ [doc]),
         [(Teachers, FindOne); (Announcements, InsertOne)])
      ∧ _id doc = HexId missing_id
      ∧ fields doc !! "message" = Some (Some "Picture day")
      ∧ fields doc !! "start_date" = Some None
      ∧ fields doc !! "expiration_date" = Some (Some "2099-06-01")
      ∧ fields doc !! "created_by" = Some (Some "mrodriguez")
      ∧ fields doc !! "created_at" = Some (Some "2025-03-15T10:00:00.000000").
Proof.
  assert (Hknown : is_teacher sample_db "mrodriguez") by by_evaluation.
  assert (Hfresh : ¬ holds (announcements_collection sample_db)
                     (HexId missing_id)) by by_evaluation.
  split_and!; [done..|].
  exact (proj2 (create_spec sample_db "2025-03-15T10:00:00.000000"
                  (HexId missing_id) new_announcement) Hknown Hfresh).
Defined.

Lemma update_partial_witness :
  is_teacher sample_db "mrodriguez"
  ∧ ¬ empty_patch message_x
  ∧ holds (announcements_collection sample_db) (HexId exam_id)
  ∧ ∃ d', (update_announcement exam_id message_x "mrodriguez" sample_db).1.1
          = Return (stringify_id d')
          ∧ fields d' !! "message" = Some (Some "X")
          ∧ ∃ d, d ∈ sample_announcements ∧ _id d = _id d'
                 ∧ ∀ k, k ≠ "message" → fields d' !! k = fields d !! k.
Proof.
  assert (Hknown : is_teacher sample_db "mrodriguez") by by_evaluation.
  assert (Hpatch : ¬ empty_patch message_x) by (by intros (? & _)).
  assert (Hstored : holds (announcements_collection sample_db) (HexId exam_id))
    by by_evaluation.
  split_and!; [done..|].
  assert (Hoid : ObjectId_of_str exam_id = Some (HexId exam_id))
    by (vm_compute; reflexivity).
  destruct (update_partial sample_db exam_id (HexId exam_id) message_x
              "mrodriguez" Hknown Hpatch Hoid Hstored)
    as (i & d & d' & Hi & Hd & Hd' & Hrun & _ & _ & Hmsg).
  destruct (Hmsg "X" eq_refl) as [Hx Hrest].
  exists d'. split_and!.
  - by rewrite Hrun.
  - done.
  - exists d. split_and!; [by eapply list_elem_of_lookup_2|congruence|done].
Defined.

Lemma update_empty_patch_witness :
  is_teacher sample_db "mrodriguez"
  ∧ empty_patch no_fields
  ∧ update_announcement exam_id no_fields "mrodriguez" sample_db
    = (Raise (HTTPException 400 "No fields to update"), sample_db,
       [(Teachers, FindOne)]).
Proof.
  assert (Hknown : is_teacher sample_db "mrodriguez") by by_evaluation.
  assert (Hempty : empty_patch no_fields) by done.
  split_and!; [done..|].
  exact (update_empty_patch sample_db exam_id no_fields "mrodriguez"
           Hknown Hempty).
Defined.

Lemma unauthorized_takes_precedence_witness :
  ¬ is_teacher sample_db "nobody"
  ∧ update_announcement "not-an-id" no_fields "nobody" sample_db
    = (Raise (HTTPException 401 "Unauthorized"), sample_db,
       [(Teachers, FindOne)])
  ∧ delete_announcement "not-an-id" "nobody" sample_db
    = (Raise (HTTPException 401 "Unauthorized"), sample_db,
       [(Teachers, FindOne)]).
Proof.
  assert (Hunknown : ¬ is_teacher sample_db "nobody") by by_evaluation.
  split; [done|].
  exact (unauthorized_takes_precedence sample_db "not-an-id" no_fields
           "nobody" Hunknown).
Defined.

(** * Further properties of the handlers *)

(** The identifiers of a collection, in store order. *)
Definition ids {K} (c : list (document K)) : list K := _id <$> c.

Section StoreFacts.
Context {K : Type} `{EqDecision K}.
Implicit Types (c : list (document K)) (d : document K) (k : K).

Lemma holds_ids c k : holds c k ↔ k ∈ ids c.
Proof.
  unfold holds, ids. rewrite list_elem_of_fmap. split.
  - intros (d & Hd & <-). by exists d.
  - intros (d & -> & Hd). by exists d.
Qed.

(** [update_one] keeps every identifier in its place. *)
Lemma update_one_ids k upd c : ids (update_one k upd c).1 = ids c.
Proof.
  unfold update_one.
  destruct (list_find _ c) as [[i d]|] eqn:Hfind; [|done].
  apply list_find_Some in Hfind as (Hi & _ & _). unfold ids. simpl.
  rewrite list_fmap_insert. simpl. apply list_insert_id.
  by rewrite list_lookup_fmap, Hi.
Qed.

(** [delete_one] only takes identifiers away. *)
Lemma delete_one_sublist k c : ids (delete_one k c).1 `sublist_of` ids c.
Proof.
  unfold delete_one.
  destruct (list_find _ c) as [[i d]|]; [|done].
  simpl. unfold ids. apply fmap_sublist, sublist_delete.
Qed.

(** [insert_one] adds an identifier that was not in use, at the end. *)
Lemma insert_one_ids k doc c c' :
  insert_one k doc c = Some c' → ids c' = ids c ++ [k] ∧ k ∉ ids c.
Proof.
  unfold insert_one. destruct (find_one k c) as [d|] eqn:Hfind; [done|].
  intros [= <-]. split.
  - unfold ids. by rewrite fmap_app.
  - rewrite <- holds_ids. intros (d & Hd & _)%find_one_holds. congruence.
Qed.

(** With unique identifiers, the deleted document's identifier is gone. *)
Lemma delete_unique_gone c i d :
  NoDup (ids c) → c !! i = Some d → ¬ holds (delete i c) (_id d).
Proof.
  intros Hnd Hi (d' & [j Hj]%list_elem_of_lookup & Hid).
  assert (Hids : ∀ n x, c !! n = Some x → ids c !! n = Some (_id x)).
  { intros n x Hn. unfold ids. by rewrite list_lookup_fmap, Hn. }
  rewrite list_lookup_delete in Hj. case_decide.
  - assert (j = i); [|lia].
    apply (NoDup_lookup (ids c) j i (_id d)); [done| |by apply Hids].
    rewrite <- Hid. by apply Hids.
  - assert (S j = i); [|lia].
    apply (NoDup_lookup (ids c) (S j) i (_id d)); [done| |by apply Hids].
    rewrite <- Hid. by apply Hids.
Qed.

(** Deleting one document keeps every document with another identifier. *)
Lemma delete_keeps_others c i d d' :
  c !! i = Some d → d' ∈ c → _id d' ≠ _id d → d' ∈ delete i c.
Proof.
  intros Hi [j Hj]%list_elem_of_lookup Hne.
  assert (j ≠ i) by (intros ->; congruence).
  apply list_elem_of_lookup. destruct (decide (j < i)).
  - exists j. by rewrite list_lookup_delete_lt.
  - exists (pred j). rewrite list_lookup_delete_ge by lia.
    by replace (S (pred j)) with j by lia.
Qed.
End StoreFacts.

Section Coverage.
Context {ObjectId : Type} `{Platform ObjectId}.
Implicit Types (db : database ObjectId) (username : string).

(** ** The paths of the handlers not yet run *)

Lemma update_no_fields db announcement_id announcement username :
  is_teacher db username →
  build_update_doc announcement = ∅ →
  update_announcement announcement_id announcement username db
  = (Raise (HTTPException 400 "No fields to update"), db,
     [(Teachers, FindOne)]).
Proof.
  intros (t & Ht & Htruthy)%teacher_found Hempty.
  unfold update_announcement. run. rewrite Ht, Htruthy, Hempty.
  unfold dict_truthy. by rewrite bool_decide_eq_true_2.
Qed.

Lemma update_found db announcement_id oid announcement username i d :
  is_teacher db username →
  ¬ empty_patch announcement →
  ObjectId_of_str announcement_id = Some oid →
  list_find (λ d, _id d = oid) (announcements_collection db) = Some (i, d) →
  update_announcement announcement_id announcement username db
  = (Return (stringify_id
               (Document (_id d) (build_update_doc announcement ∪ fields d))),
     Database (teachers_collection db)
       (<[i := Document (_id d) (build_update_doc announcement ∪ fields d)]>
          (announcements_collection db)),
     [(Teachers, FindOne); (Announcements, UpdateOne);
      (Announcements, FindOne)]).
Proof.
  intros (t & Ht & Htruthy)%teacher_found Hpatch%nonempty_update_doc
         Hoid Hfind.
  assert (Hd : _id d = oid) by (by apply list_find_Some in Hfind as (_ & ? & _)).
  unfold update_announcement. run. rewrite Ht, Htruthy. step.
  rewrite Hpatch. step. rewrite Hoid. step.
  unfold update_one. rewrite Hfind. step.
  unfold find_one. cbn [announcements_collection].
  by rewrite (list_find_insert_same oid _ i d
                (Document (_id d) (build_update_doc announcement ∪ fields d))
                Hfind Hd).
Qed.

Lemma delete_malformed_id db announcement_id username :
  is_teacher db username →
  ObjectId_of_str announcement_id = None →
  delete_announcement announcement_id username db
  = (Raise (HTTPException 400
              ("Invalid announcement ID: "
               +:+ str_of_exn (InvalidId announcement_id))),
     db, [(Teachers, FindOne)]).
Proof.
  intros (t & Ht & Htruthy)%teacher_found Hoid.
  unfold delete_announcement. run. rewrite Ht, Htruthy. step.
  by rewrite Hoid.
Qed.

Lemma delete_found_at db announcement_id oid username i d :
  is_teacher db username →
  ObjectId_of_str announcement_id = Some oid →
  list_find (λ d, _id d = oid) (announcements_collection db) = Some (i, d) →
  delete_announcement announcement_id username db
  = (Return {["message" := "Announcement deleted successfully"]},
     Database (teachers_collection db)
              (delete i (announcements_collection db)),
     [(Teachers, FindOne); (Announcements, DeleteOne)]).
Proof.
  intros (t & Ht & Htruthy)%teacher_found Hoid Hfind.
  unfold delete_announcement. run. rewrite Ht, Htruthy. step.
  rewrite Hoid. step. unfold delete_one. by rewrite Hfind.
Qed.

Lemma get_all_known db username :
  is_teacher db username →
  get_all_announcements username db
  = (Return (stringify_id
               <$> find_sort_desc "created_at" (announcements_collection db)),
     db, [(Teachers, FindOne); (Announcements, Find)]).
Proof.
  intros (t & Ht & Htruthy)%teacher_found.
  unfold get_all_announcements. run. by rewrite Ht, Htruthy.
Qed.

Lemma get_all_unknown db username :
  ¬ is_teacher db username →
  get_all_announcements username db
  = (Raise (HTTPException 401 "Unauthorized"), db, [(Teachers, FindOne)]).
Proof.
  intros Hn. unfold get_all_announcements. run.
  by rewrite (teacher_not_found _ _ Hn).
Qed.

(** The document [create_announcement] builds from the request. *)
Definition announcement_doc (now : string)
    (announcement : AnnouncementCreate.t) : pydict :=
  list_to_map
    [("message", Some (AnnouncementCreate.message announcement));
     ("start_date", AnnouncementCreate.start_date announcement);
     ("expiration_date",
       Some (AnnouncementCreate.expiration_date announcement));
     ("created_by", Some (AnnouncementCreate.created_by announcement));
     ("created_at", Some now)].

Lemma create_unknown db now new_id announcement :
  ¬ is_teacher db (AnnouncementCreate.created_by announcement) →
  create_announcement now new_id announcement db
  = (Raise (HTTPException 401 "Unauthorized"), db, [(Teachers, FindOne)]).
Proof.
  intros Hn. unfold create_announcement. run.
  by rewrite (teacher_not_found _ _ Hn).
Qed.

Lemma create_known db now new_id announcement :
  is_teacher db (AnnouncementCreate.created_by announcement) →
  create_announcement now new_id announcement db
  = match insert_one new_id (announcement_doc now announcement)
            (announcements_collection db) with
    | Some c =>
        (Return (stringify_id
                   (Document new_id (announcement_doc now announcement))),
         Database (teachers_collection db) c,
         [(Teachers, FindOne); (Announcements, InsertOne)])
    | None =>
        (Raise DuplicateKeyError, db,
         [(Teachers, FindOne); (Announcements, InsertOne)])
    end.
Proof.
  intros (t & Ht & Htruthy)%teacher_found.
  unfold create_announcement. run. rewrite Ht, Htruthy. step.
  fold (announcement_doc now announcement).
  by destruct (insert_one _ _ _).
Qed.

(** On every path [update_announcement] leaves the identifiers of the
    announcements collection as they were. *)
Lemma update_ids db announcement_id announcement username :
  ids (announcements_collection
         (update_announcement announcement_id announcement username db).1.2)
  = ids (announcements_collection db).
Proof.
  destruct (decide (is_teacher db username)) as [Ht|Ht];
    [|by rewrite update_unknown_caller].
  destruct (decide (build_update_doc announcement = ∅)) as [He|He];
    [by rewrite update_no_fields|].
  rewrite build_update_doc_empty in He.
  destruct (ObjectId_of_str announcement_id) as [oid|] eqn:Hoid;
    [|by rewrite update_malformed_id].
  destruct (list_find (λ d, _id d = oid) (announcements_collection db))
    as [[i d]|] eqn:Hfind.
  - rewrite (update_found db announcement_id oid announcement username i d)
      by done.
    pose proof (update_one_ids oid (build_update_doc announcement)
                  (announcements_collection db)) as Hids.
    unfold update_one in Hids. by rewrite Hfind in Hids.
  - rewrite (update_not_found db announcement_id oid); [done..|].
    intros (i & d & Hf & _)%list_find_holds. congruence.
Qed.

(** On every path [delete_announcement] only takes identifiers away. *)
Lemma delete_ids db announcement_id username :
  ids (announcements_collection
         (delete_announcement announcement_id username db).1.2)
  `sublist_of` ids (announcements_collection db).
Proof.
  destruct (decide (is_teacher db username)) as [Ht|Ht];
    [|by rewrite delete_unknown_caller].
  destruct (ObjectId_of_str announcement_id) as [oid|] eqn:Hoid;
    [|by rewrite delete_malformed_id].
  destruct (list_find (λ d, _id d = oid) (announcements_collection db))
    as [[i d]|] eqn:Hfind.
  - rewrite (delete_found_at db announcement_id oid username i d) by done.
    simpl. unfold ids. apply fmap_sublist, sublist_delete.
  - rewrite (delete_not_found db announcement_id oid); [done..|].
    intros (i & d & Hf & _)%list_find_holds. congruence.
Qed.

(** ** Malformed identifiers *)

(** X1: for a known caller, an identifier that [ObjectId] rejects makes
    update (with a body that has a non-null field) and delete fail with 400
    "Invalid announcement ID: ..." carrying the text of the [InvalidId]
    error; the database is left as it was and the announcements collection
    is not called. *)
Theorem malformed_id_rejected db announcement_id announcement username :
  is_teacher db username →
  ObjectId_of_str announcement_id = None →
  (¬ empty_patch announcement →
   update_announcement announcement_id announcement username db
   = (Raise (HTTPException 400
               ("Invalid announcement ID: "
                +:+ str_of_exn (InvalidId announcement_id))),
      db, [(Teachers, FindOne)]))
  ∧ delete_announcement announcement_id username db
    = (Raise (HTTPException 400
                ("Invalid announcement ID: "
                 +:+ str_of_exn (InvalidId announcement_id))),
       db, [(Teachers, FindOne)]).
Proof.
  intros Ht Hoid. split.
  - intros Hpatch. by apply update_malformed_id.
  - by apply delete_malformed_id.
Qed.

(** ** Failures *)

(** X2: whenever [update_announcement] raises, the database is exactly as
    it was before the request, and what it raises is an [HTTPException]
    with status 401 or 400: no other status and no other exception leaves
    the handler. *)
Theorem update_failure_leaves_database db announcement_id announcement
    username e db' calls :
  update_announcement announcement_id announcement username db
  = (Raise e, db', calls) →
  db' = db
  ∧ (e = HTTPException 401 "Unauthorized"
     ∨ ∃ detail, e = HTTPException 400 detail).
Proof.
  destruct (decide (is_teacher db username)) as [Ht|Ht].
  2: { rewrite update_unknown_caller by done. intros [= <- <- _]. eauto. }
  destruct (decide (build_update_doc announcement = ∅)) as [He|He].
  { rewrite update_no_fields by done. intros [= <- <- _]. eauto. }
  rewrite build_update_doc_empty in He.
  destruct (ObjectId_of_str announcement_id) as [oid|] eqn:Hoid.
  2: { rewrite update_malformed_id by done. intros [= <- <- _]. eauto. }
  destruct (list_find (λ d, _id d = oid) (announcements_collection db))
    as [[i d]|] eqn:Hfind.
  - by rewrite (update_found db announcement_id oid announcement username i d).
  - rewrite (update_not_found db announcement_id oid); [|done..|].
    + intros [= <- <- _]. eauto.
    + intros (i & d & Hf & _)%list_find_holds. congruence.
Qed.

(** X3: whenever [delete_announcement] raises, the database is exactly as
    it was before the request, and what it raises is an [HTTPException]
    with status 401 or 400. *)
Theorem delete_failure_leaves_database db announcement_id username e db'
    calls :
  delete_announcement announcement_id username db = (Raise e, db', calls) →
  db' = db
  ∧ (e = HTTPException 401 "Unauthorized"
     ∨ ∃ detail, e = HTTPException 400 detail).
Proof.
  destruct (decide (is_teacher db username)) as [Ht|Ht].
  2: { rewrite delete_unknown_caller by done. intros [= <- <- _]. eauto. }
  destruct (ObjectId_of_str announcement_id) as [oid|] eqn:Hoid.
  2: { rewrite delete_malformed_id by done. intros [= <- <- _]. eauto. }
  destruct (list_find (λ d, _id d = oid) (announcements_collection db))
    as [[i d]|] eqn:Hfind.
  - by rewrite (delete_found_at db announcement_id oid username i d).
  - rewrite (delete_not_found db announcement_id oid); [|done..|].
    + intros [= <- <- _]. eauto.
    + intros (i & d & Hf & _)%list_find_holds. congruence.
Qed.

(** ** Identifiers *)

(** X4: [update_announcement] never adds, removes or reorders documents:
    on every path, returning or raising, the announcements collection has
    the same identifiers in the same order afterwards, and so the same
    number of documents. *)
Theorem update_keeps_identifiers db announcement_id announcement username :
  ids (announcements_collection
         (update_announcement announcement_id announcement username db).1.2)
  = ids (announcements_collection db)
  ∧ length (announcements_collection
              (update_announcement announcement_id announcement username
                 db).1.2)
    = length (announcements_collection db).
Proof.
  pose proof (update_ids db announcement_id announcement username) as Hids.
  split; [done|].
  apply (f_equal length) in Hids. unfold ids in Hids.
  by rewrite !length_fmap in Hids.
Qed.

(** X5: when the identifiers of the announcements collection are pairwise
    distinct, they still are after any of the five handlers has run,
    whatever the request and whether it returns or raises. *)
Theorem identifiers_stay_unique db today now new_id username
    announcement_id create_body update_body :
  NoDup (ids (announcements_collection db)) →
  NoDup (ids (announcements_collection
                (get_active_announcements today db).1.2))
  ∧ NoDup (ids (announcements_collection
                  (get_all_announcements username db).1.2))
  ∧ NoDup (ids (announcements_collection
                  (create_announcement now new_id create_body db).1.2))
  ∧ NoDup (ids (announcements_collection
                  (update_announcement announcement_id update_body username
                     db).1.2))
  ∧ NoDup (ids (announcements_collection
                  (delete_announcement announcement_id username db).1.2)).
Proof.
  intros Hnd. split_and!.
  - by rewrite get_active_announcements_filter.
  - destruct (decide (is_teacher db username)) as [Ht|Ht].
    + by rewrite get_all_known.
    + by rewrite get_all_unknown.
  - destruct (decide (is_teacher db
                        (AnnouncementCreate.created_by create_body)))
      as [Ht|Ht]; [|by rewrite create_unknown].
    rewrite create_known by done.
    destruct (insert_one _ _ _) as [c|] eqn:Hins; [|done].
    apply insert_one_ids in Hins as [Hc Hfresh]. simpl. rewrite Hc.
    apply NoDup_app. split_and!; [done| |apply NoDup_singleton].
    intros k Hk ->%list_elem_of_singleton. done.
  - by rewrite update_ids.
  - exact (sublist_NoDup _ _ Hnd (delete_ids db announcement_id username)).
Qed.

(** ** Deleting, updating and creating, composed *)

(** X6: a delete by a known caller of a stored identifier, in a collection
    whose identifiers are pairwise distinct, returns the confirmation and
    removes exactly that document: afterwards no document has the
    identifier, every document with another identifier is still stored, and
    the collection is one document shorter. *)
Theorem delete_removes_document db announcement_id oid username :
  is_teacher db username →
  ObjectId_of_str announcement_id = Some oid →
  holds (announcements_collection db) oid →
  NoDup (ids (announcements_collection db)) →
  ∃ db',
    delete_announcement announcement_id username db
    = (Return {["message" := "Announcement deleted successfully"]}, db',
       [(Teachers, FindOne); (Announcements, DeleteOne)])
    ∧ teachers_collection db' = teachers_collection db
    ∧ ¬ holds (announcements_collection db') oid
    ∧ (∀ d, d ∈ announcements_collection db → _id d ≠ oid →
            d ∈ announcements_collection db')
    ∧ S (length (announcements_collection db'))
      = length (announcements_collection db).
Proof.
  intros Ht Hoid (i & d & Hfind & Hi & Hd)%list_find_holds Hnd.
  eexists. split; [by apply (delete_found_at db announcement_id oid username i d)|].
  cbn [teachers_collection announcements_collection]. split_and!.
  - done.
  - rewrite <- Hd. by apply delete_unique_gone.
  - intros d' Hd' Hne. apply (delete_keeps_others _ i d); [done..|congruence].
  - rewrite length_delete by eauto.
    apply lookup_lt_Some in Hi. lia.
Qed.

(** X7: repeating a successful update changes nothing more: run on the
    database the first update left, the same request returns the same
    document, makes the same calls and leaves that database as it is. *)
Theorem update_twice_same db announcement_id oid announcement username :
  is_teacher db username →
  ¬ empty_patch announcement →
  ObjectId_of_str announcement_id = Some oid →
  holds (announcements_collection db) oid →
  update_announcement announcement_id announcement username
    (update_announcement announcement_id announcement username db).1.2
  = update_announcement announcement_id announcement username db.
Proof.
  intros Ht Hpatch Hoid (i & d & Hfind & Hi & Hd)%list_find_holds.
  rewrite (update_found db announcement_id oid announcement username i d)
    by done.
  cbn [fst snd].
  set (d' := Document (_id d) (build_update_doc announcement ∪ fields d)).
  assert (Hfind' : list_find (λ d, _id d = oid)
                     (<[i := d']> (announcements_collection db))
                   = Some (i, d'))
    by (by apply (list_find_insert_same oid _ i d d')).
  rewrite (update_found _ announcement_id oid announcement username i d');
    [|done..].
  cbn [teachers_collection announcements_collection].
  assert (Hsame : Document (_id d')
                    (build_update_doc announcement ∪ fields d') = d').
  { unfold d'. cbn [_id fields].
    by rewrite (assoc_L (∪)), (idemp_L (∪)). }
  by rewrite Hsame, list_insert_insert_eq.
Qed.

(** X8: delete undoes create.  When the identifier generated for a new
    announcement is not in use and reads back from its rendering, the
    created announcement is returned with that rendering as its ["_id"],
    and deleting that identifier succeeds and leaves the database the
    create started from. *)
Theorem create_then_delete db now new_id announcement :
  is_teacher db (AnnouncementCreate.created_by announcement) →
  ¬ holds (announcements_collection db) new_id →
  ObjectId_of_str (str_of_ObjectId new_id) = Some new_id →
  ∃ r id_str db1,
    create_announcement now new_id announcement db
    = (Return r, db1, [(Teachers, FindOne); (Announcements, InsertOne)])
    ∧ r !! "_id" = Some (Some id_str)
    ∧ delete_announcement id_str
        (AnnouncementCreate.created_by announcement) db1
      = (Return {["message" := "Announcement deleted successfully"]}, db,
         [(Teachers, FindOne); (Announcements, DeleteOne)]).
Proof.
  intros Ht Hfresh Hoid.
  set (doc := Document new_id (announcement_doc now announcement)).
  exists (stringify_id doc), (str_of_ObjectId new_id),
    (Database (teachers_collection db)
       (announcements_collection db ++ [doc])).
  split_and!.
  - rewrite create_known by done. unfold insert_one.
    by rewrite (find_one_not_holds _ _ Hfresh).
  - unfold stringify_id. by rewrite lookup_insert_eq.
  - rewrite (delete_found_at _ _ new_id _
               (length (announcements_collection db)) doc); [|done..|].
    + cbn [teachers_collection announcements_collection].
      replace (announcements_collection db ++ [doc])
        with (announcements_collection db ++ doc :: []) by done.
      rewrite delete_middle, app_nil_r. by rewrite database_eta.
    + cbn [announcements_collection].
      rewrite list_find_app_r by (by apply list_find_not_holds).
      simpl. by rewrite decide_True by done.
Qed.

(** X9: an announcement is listed as soon as it is created.  When the
    generated identifier is not in use, what a known teacher creates is in
    the result of [get_all_announcements] on the new database, and, if its
    expiration date is at or after the current date and its start date is
    null or at or before the current date, in the result of
    [get_active_announcements] too. *)
Theorem created_is_listed db now new_id announcement today :
  is_teacher db (AnnouncementCreate.created_by announcement) →
  ¬ holds (announcements_collection db) new_id →
  ∃ r db1 calls,
    create_announcement now new_id announcement db = (Return r, db1, calls)
    ∧ (∃ l, (get_all_announcements
               (AnnouncementCreate.created_by announcement) db1).1.1
            = Return l ∧ r ∈ l)
    ∧ (String.leb today (AnnouncementCreate.expiration_date announcement)
       = true →
       (∀ s, AnnouncementCreate.start_date announcement = Some s →
             String.leb s today = true) →
       ∃ l, (get_active_announcements today db1).1.1 = Return l ∧ r ∈ l).
Proof.
  intros Ht Hfresh.
  set (doc := Document new_id (announcement_doc now announcement)).
  exists (stringify_id doc),
    (Database (teachers_collection db)
       (announcements_collection db ++ [doc])),
    [(Teachers, FindOne); (Announcements, InsertOne)].
  assert (Hin : doc ∈ announcements_collection db ++ [doc]).
  { apply elem_of_app. right. apply list_elem_of_here. }
  split_and!.
  - rewrite create_known by done. unfold insert_one.
    by rewrite (find_one_not_holds _ _ Hfresh).
  - rewrite get_all_known by done. eexists. split; [done|].
    apply list_elem_of_fmap_2. unfold find_sort_desc.
    by rewrite merge_sort_Permutation.
  - intros Hexp Hstart. rewrite get_active_announcements_filter.
    eexists. split; [done|].
    apply list_elem_of_fmap_2, list_elem_of_filter. split; [|done].
    split.
    + exists (AnnouncementCreate.expiration_date announcement).
      split; [|done]. unfold doc, announcement_doc. by simplify_map_eq.
    + unfold started, dict_get.
      assert (Hs : fields doc !! "start_date"
                   = Some (AnnouncementCreate.start_date announcement))
        by (unfold doc, announcement_doc; by simplify_map_eq).
      rewrite Hs.
      destruct (AnnouncementCreate.start_date announcement) as [s|];
        [right; eauto|by left].
Qed.

(** ** Listing *)

(** X10: the two listing handlers only read.  They leave the database as
    it was, and every dictionary they return is a stored announcement with
    its ["_id"] replaced by the rendering of its identifier. *)
Theorem listings_render_stored db today username :
  (get_active_announcements today db).1.2 = db
  ∧ (get_all_announcements username db).1.2 = db
  ∧ ∀ l r,
      (get_active_announcements today db).1.1 = Return l
      ∨ (get_all_announcements username db).1.1 = Return l →
      r ∈ l →
      ∃ d, d ∈ announcements_collection db
           ∧ r = <["_id" := Some (str_of_ObjectId (_id d))]> (fields d).
Proof.
  assert (Hall : (get_all_announcements username db).1.2 = db
                 ∧ ∀ l, (get_all_announcements username db).1.1 = Return l →
                        l = stringify_id
                              <$> find_sort_desc "created_at"
                                    (announcements_collection db)).
  { destruct (decide (is_teacher db username)) as [Ht|Ht].
    - rewrite get_all_known by done. split; [done|]. by intros l [= <-].
    - rewrite get_all_unknown by done. split; [done|]. by intros l. }
  destruct Hall as [Hdb Hl]. split_and!.
  - by rewrite get_active_announcements_filter.
  - done.
  - intros l r [Hr|Hr] Hin.
    + rewrite get_active_announcements_filter in Hr. injection Hr as <-.
      apply list_elem_of_fmap in Hin as (d & -> & Hd).
      apply list_elem_of_filter in Hd as [_ Hd]. by exists d.
    + rewrite (Hl l Hr) in Hin.
      apply list_elem_of_fmap in Hin as (d & -> & Hd).
      unfold find_sort_desc in Hd. rewrite merge_sort_Permutation in Hd.
      by exists d.
Qed.

(** X11: for a known caller, whatever [get_active_announcements] returns
    is also in what [get_all_announcements] returns. *)
Theorem active_among_all db today username :
  is_teacher db username →
  ∃ active all,
    (get_active_announcements today db).1.1 = Return active
    ∧ (get_all_announcements username db).1.1 = Return all
    ∧ active ⊆ all.
Proof.
  intros Ht. rewrite get_active_announcements_filter, get_all_known by done.
  eexists _, _. split_and!; [done..|].
  intros r (d & -> & Hd)%list_elem_of_fmap.
  apply list_elem_of_filter in Hd as [_ Hd].
  apply list_elem_of_fmap_2. unfold find_sort_desc.
  by rewrite merge_sort_Permutation.
Qed.
End Coverage.

(** ** The further properties at the sample database *)

Lemma malformed_id_rejected_witness :
  is_teacher sample_db "mrodriguez"
  ∧ ObjectId_of_str "not-an-id" = None
  ∧ ¬ empty_patch message_x
  ∧ update_announcement "not-an-id" message_x "mrodriguez" sample_db
    = (Raise (HTTPException 400
                ("Invalid announcement ID: "
                 +:+ str_of_exn (InvalidId "not-an-id"))),
       sample_db, [(Teachers, FindOne)])
  ∧ delete_announcement "not-an-id" "mrodriguez" sample_db
    = (Raise (HTTPException 400
                ("Invalid announcement ID: "
                 +:+ str_of_exn (InvalidId "not-an-id"))),
       sample_db, [(Teachers, FindOne)]).
Proof.
  assert (Hknown : is_teacher sample_db "mrodriguez") by by_evaluation.
  assert (Hoid : ObjectId_of_str "not-an-id" = None)
    by (vm_compute; reflexivity).
  assert (Hpatch : ¬ empty_patch message_x) by (by intros (? & _)).
  destruct (malformed_id_rejected sample_db "not-an-id" message_x
              "mrodriguez" Hknown Hoid) as [Hupdate Hdelete].
  split_and!; [exact Hknown|exact Hoid|exact Hpatch|exact (Hupdate Hpatch)|
               exact Hdelete].
Defined.

Lemma update_failure_leaves_database_witness :
  ∃ e db' calls,
    update_announcement missing_id message_x "mrodriguez" sample_db
    = (Raise e, db', calls)
    ∧ db' = sample_db
    ∧ (e = HTTPException 401 "Unauthorized"
       ∨ ∃ detail, e = HTTPException 400 detail).
Proof.
  eexists _, _, _.
  assert (Hrun : update_announcement missing_id message_x "mrodriguez"
                   sample_db
                 = (Raise (HTTPException 400
                      "Invalid announcement ID: 404: Announcement not found"),
                    sample_db,
                    [(Teachers, FindOne); (Announcements, UpdateOne)]))
    by (vm_compute; reflexivity).
  split; [exact Hrun|].
  exact (update_failure_leaves_database sample_db missing_id message_x
           "mrodriguez" _ _ _ Hrun).
Defined.

Lemma delete_failure_leaves_database_witness :
  ∃ e db' calls,
    delete_announcement missing_id "mrodriguez" sample_db
    = (Raise e, db', calls)
    ∧ db' = sample_db
    ∧ (e = HTTPException 401 "Unauthorized"
       ∨ ∃ detail, e = HTTPException 400 detail).
Proof.
  eexists _, _, _.
  assert (Hrun : delete_announcement missing_id "mrodriguez" sample_db
                 = (Raise (HTTPException 400
                      "Invalid announcement ID: 404: Announcement not found"),
                    sample_db,
                    [(Teachers, FindOne); (Announcements, DeleteOne)]))
    by (vm_compute; reflexivity).
  split; [exact Hrun|].
  exact (delete_failure_leaves_database sample_db missing_id "mrodriguez"
           _ _ _ Hrun).
Defined.

Lemma identifiers_stay_unique_witness :
  NoDup (ids (announcements_collection sample_db))
  ∧ NoDup (ids (announcements_collection
                  (create_announcement "2025-03-15T10:00:00.000000"
                     (HexId missing_id) new_announcement sample_db).1.2))
  ∧ NoDup (ids (announcements_collection
                  (delete_announcement exam_id "mrodriguez" sample_db).1.2)).
Proof.
  assert (Hnd : NoDup (ids (announcements_collection sample_db)))
    by by_evaluation.
  destruct (identifiers_stay_unique sample_db "2025-03-15"
              "2025-03-15T10:00:00.000000" (HexId missing_id) "mrodriguez"
              exam_id new_announcement message_x Hnd)
    as (_ & _ & Hcreate & _ & Hdelete).
  split_and!; [exact Hnd|exact Hcreate|exact Hdelete].
Defined.

Lemma delete_removes_document_witness :
  is_teacher sample_db "mrodriguez"
  ∧ holds (announcements_collection sample_db) (HexId exam_id)
  ∧ NoDup (ids (announcements_collection sample_db))
  ∧ ∃ db',
      delete_announcement exam_id "mrodriguez" sample_db
      = (Return {["message" := "Announcement deleted successfully"]}, db',
         [(Teachers, FindOne); (Announcements, DeleteOne)])
      ∧ teachers_collection db' = teachers_collection sample_db
      ∧ ¬ holds (announcements_collection db') (HexId exam_id)
      ∧ (∀ d, d ∈ announcements_collection sample_db →
              _id d ≠ HexId exam_id → d ∈ announcements_collection db')
      ∧ S (length (announcements_collection db'))
        = length (announcements_collection sample_db).
Proof.
  assert (Hknown : is_teacher sample_db "mrodriguez") by by_evaluation.
  assert (Hoid : ObjectId_of_str exam_id = Some (HexId exam_id))
    by (vm_compute; reflexivity).
  assert (Hstored : holds (announcements_collection sample_db) (HexId exam_id))
    by by_evaluation.
  assert (Hnd : NoDup (ids (announcements_collection sample_db)))
    by by_evaluation.
  split_and!; [exact Hknown|exact Hstored|exact Hnd|].
  exact (delete_removes_document sample_db exam_id (HexId exam_id)
           "mrodriguez" Hknown Hoid Hstored Hnd).
Defined.

Lemma update_twice_same_witness :
  is_teacher sample_db "mrodriguez"
  ∧ ¬ empty_patch message_x
  ∧ holds (announcements_collection sample_db) (HexId exam_id)
  ∧ update_announcement exam_id message_x "mrodriguez"
      (update_announcement exam_id message_x "mrodriguez" sample_db).1.2
    = update_announcement exam_id message_x "mrodriguez" sample_db.
Proof.
  assert (Hknown : is_teacher sample_db "mrodriguez") by by_evaluation.
  assert (Hpatch : ¬ empty_patch message_x) by (by intros (? & _)).
  assert (Hoid : ObjectId_of_str exam_id = Some (HexId exam_id))
    by (vm_compute; reflexivity).
  assert (Hstored : holds (announcements_collection sample_db) (HexId exam_id))
    by by_evaluation.
  split_and!; [exact Hknown|exact Hpatch|exact Hstored|].
  exact (update_twice_same sample_db exam_id (HexId exam_id) message_x
           "mrodriguez" Hknown Hpatch Hoid Hstored).
Defined.

Lemma create_then_delete_witness :
  is_teacher sample_db "mrodriguez"
  ∧ ¬ holds (announcements_collection sample_db) (HexId missing_id)
  ∧ ObjectId_of_str (str_of_ObjectId (HexId missing_id))
    = Some (HexId missing_id)
  ∧ ∃ r id_str db1,
      create_announcement "2025-03-15T10:00:00.000000" (HexId missing_id)
        new_announcement sample_db
      = (Return r, db1, [(Teachers, FindOne); (Announcements, InsertOne)])
      ∧ r !! "_id" = Some (Some id_str)
      ∧ delete_announcement id_str "mrodriguez" db1
        = (Return {["message" := "Announcement deleted successfully"]},
           sample_db, [(Teachers, FindOne); (Announcements, DeleteOne)]).
Proof.
  assert (Hknown : is_teacher sample_db "mrodriguez") by by_evaluation.
  assert (Hfresh : ¬ holds (announcements_collection sample_db)
                     (HexId missing_id)) by by_evaluation.
  assert (Hoid : ObjectId_of_str (str_of_ObjectId (HexId missing_id))
                 = Some (HexId missing_id)) by (vm_compute; reflexivity).
  split_and!; [exact Hknown|exact Hfresh|exact Hoid|].
  exact (create_then_delete sample_db "2025-03-15T10:00:00.000000"
           (HexId missing_id) new_announcement Hknown Hfresh Hoid).
Defined.

Lemma created_is_listed_witness :
  is_teacher sample_db "mrodriguez"
  ∧ ¬ holds (announcements_collection sample_db) (HexId missing_id)
  ∧ ∃ r db1,
      (create_announcement "2025-03-15T10:00:00.000000" (HexId missing_id)
         new_announcement sample_db).1
      = (Return r, db1)
      ∧ (∃ l, (get_all_announcements "mrodriguez" db1).1.1 = Return l
              ∧ r ∈ l)
      ∧ (∃ l, (get_active_announcements "2025-03-15" db1).1.1 = Return l
              ∧ r ∈ l).
Proof.
  assert (Hknown : is_teacher sample_db "mrodriguez") by by_evaluation.
  assert (Hfresh : ¬ holds (announcements_collection sample_db)
                     (HexId missing_id)) by by_evaluation.
  split_and!; [exact Hknown|exact Hfresh|].
  destruct (created_is_listed sample_db "2025-03-15T10:00:00.000000"
              (HexId missing_id) new_announcement "2025-03-15" Hknown Hfresh)
    as (r & db1 & calls & Hrun & Hall & Hactive).
  exists r, db1. split_and!.
  - rewrite Hrun. reflexivity.
  - exact Hall.
  - apply Hactive.
    + vm_compute; reflexivity.
    + intros s Hs. discriminate Hs.
Defined.

Lemma listings_render_stored_witness :
  ∃ d, d ∈ announcements_collection sample_db
       ∧ stringify_id exam_doc
         = <["_id" := Some (str_of_ObjectId (_id d))]> (fields d).
Proof.
  assert (Hrun : (get_active_announcements "2025-03-15" sample_db).1.1
                 = Return (stringify_id
                             <$> filter (active_on "2025-03-15")
                                   (announcements_collection sample_db)))
    by (rewrite get_active_announcements_filter; reflexivity).
  apply (proj2 (proj2 (listings_render_stored sample_db "2025-03-15"
                         "mrodriguez"))
           _ (stringify_id exam_doc) (or_introl Hrun)).
  apply list_elem_of_fmap_2, list_elem_of_filter. split.
  - by_evaluation.
  - apply list_elem_of_here.
Defined.

Lemma active_among_all_witness :
  is_teacher sample_db "mrodriguez"
  ∧ ∃ active all,
      (get_active_announcements "2025-03-15" sample_db).1.1 = Return active
      ∧ (get_all_announcements "mrodriguez" sample_db).1.1 = Return all
      ∧ active ⊆ all.
Proof.
  assert (Hknown : is_teacher sample_db "mrodriguez") by by_evaluation.
  split; [exact Hknown|].
  exact (active_among_all sample_db "2025-03-15" "mrodriguez" Hknown).
Defined.
